(** * Member-function decorators: a shallow embedding of
      [enable_memberfunc_traits.cpp]

    The program composes three decorators ([exception_fail_safe], [output],
    [log_time]) around a member function of class [apples] and stores the
    composition in a callable member ([class_memberfunc]).  The embedding
    keeps the source's names.  C++ effects are explicit: a computation takes
    the world (standard output, system clock, object store) and either
    returns, throws, or has no defined behaviour. *)

From Stdlib Require Import ZArith String Ascii Floats Bool Lia.
From stdpp Require Import base option gmap.

Set Warnings "-inexact-float".

Local Open Scope Z_scope.
Local Open Scope string_scope.

(** ** Scalars *)

(** An [int] is carried as the [Z] it denotes, a number from [- 2 ^ 31] to
    [2 ^ 31 - 1]: the program compares an [int] with zero and converts it to
    [double], it does no [int] arithmetic.  A [double] is IEEE 754 binary64,
    the kernel's [float]; the conversion of an [int] to [double] is the
    correctly rounded one, total on [Z]. *)
Definition double : Type := float.

Definition int_to_double (n : Z) : double :=
  SF2Prim (binary_normalize prec emax n 0 false).

(** ** Text *)

Definition newline : string := String (ascii_of_nat 10) EmptyString.

(** [mentions needle hay]: [needle] occurs in [hay] as a substring. *)
Definition mentions (needle hay : string) : bool :=
  match String.index 0 needle hay with
  | Some _ => true
  | None => false
  end.

(** Number of positions of [hay] at which [needle] starts. *)
Fixpoint occurrences (needle hay : string) : nat :=
  match hay with
  | EmptyString => if String.prefix needle EmptyString then 1%nat else 0%nat
  | String _ rest =>
      ((if String.prefix needle hay then 1 else 0) + occurrences needle rest)%nat
  end.

(** Whether character [c] occurs in [s]. *)
Fixpoint has_char (c : ascii) (s : string) : bool :=
  match s with
  | EmptyString => false
  | String d rest => Ascii.eqb c d || has_char c rest
  end.

(** ** Exceptions *)

(** The classes of [<stdexcept>] and friends that the program names or can
    meet; every one of them derives from [std::exception] and carries the
    text its [what()] returns. *)
Inductive std_class : Type :=
| ios_failure        (* std::ios_base::failure, alias std::iostream::failure *)
| runtime_error      (* std::runtime_error *)
| bad_function_call  (* std::bad_function_call *)
| other_std.         (* any other class derived from std::exception *)

(** A thrown object: either derived from [std::exception], or anything else
    ([throw 42;], [throw "text";], a user class outside the hierarchy). *)
Inductive thrown : Type :=
| std_exception (cls : std_class) (what : string)
| non_std.

(** What calling an empty [std::function] throws; the text of its [what()]
    is the implementation's, here libstdc++'s. *)
Definition empty_function_call : thrown :=
  std_exception bad_function_call "bad_function_call".

(** ** The world and computations *)

(** Object addresses: what a [T*] or a [T&] holds. *)
Definition addr : Type := positive.

(** [console] is everything written to [std::cout] so far, [clock] what
    [std::chrono::system_clock::now()] converts to as a [time_t], [heap] the
    live objects of the class the program is instantiated at. *)
Record world (Obj : Type) : Type := World {
  console : string;
  clock : Z;
  heap : gmap addr Obj
}.
Arguments World {Obj} _ _ _.
Arguments console {Obj} _.
Arguments clock {Obj} _.
Arguments heap {Obj} _.

(** How a call ends.  [Undefined] is a call the language gives no meaning to
    (a read through a pointer to no live object); [try] does not see it. *)
Inductive outcome (Obj A : Type) : Type :=
| Returned (a : A) (w : world Obj)
| Thrown (e : thrown) (w : world Obj)
| Undefined.
Arguments Returned {Obj A} _ _.
Arguments Thrown {Obj A} _ _.
Arguments Undefined {Obj A}.

Definition cxx (Obj A : Type) : Type := world Obj -> outcome Obj A.

Section Computations.
Context {Obj : Type}.

Definition ret {A} (a : A) : cxx Obj A := fun w => Returned a w.

Definition bind {A B} (m : cxx Obj A) (k : A -> cxx Obj B) : cxx Obj B :=
  fun w =>
    match m w with
    | Returned a w' => k a w'
    | Thrown e w' => Thrown e w'
    | Undefined => Undefined
    end.

Definition throw {A} (e : thrown) : cxx Obj A := fun w => Thrown e w.

(** [try { body } catch ... { handler }]: the handlers are one function of
    the thrown object; a handler that matches nothing rethrows. *)
Definition try_catch {A} (body : cxx Obj A) (handler : thrown -> cxx Obj A)
  : cxx Obj A :=
  fun w =>
    match body w with
    | Thrown e w' => handler e w'
    | r => r
    end.

(** The world once [s] has been appended to standard output. *)
Definition printed (s : string) (w : world Obj) : world Obj :=
  World (console w ++ s) (clock w) (heap w).

(** [std::cout << s] *)
Definition cout (s : string) : cxx Obj unit :=
  fun w => Returned tt (printed s w).

(** [std::cout << std::endl] *)
Definition endl : cxx Obj unit := cout newline.

(** [std::chrono::system_clock::to_time_t(std::chrono::system_clock::now())] *)
Definition system_clock_now : cxx Obj Z :=
  fun w => Returned (clock w) w.

(** A read through a reference or pointer to an [Obj]. *)
Definition deref (p : addr) : cxx Obj Obj :=
  fun w =>
    match heap w !! p with
    | Some o => Returned o w
    | None => Undefined
    end.

(** Initialising the object at [p]. *)
Definition store (p : addr) (o : Obj) : cxx Obj unit :=
  fun w => Returned tt (World (console w) (clock w) (<[p := o]> (heap w))).
End Computations.

Declare Scope cxx_scope.
Delimit Scope cxx_scope with cxx.
Notation "x <- m ;; k" := (bind m (fun x => k))
  (at level 100, m at next level, right associativity) : cxx_scope.
Notation "m ;; k" := (bind m (fun _ => k))
  (at level 100, right associativity) : cxx_scope.
Local Open Scope cxx_scope.

(** What the standard library supplies and the program only uses. *)

(** [operator<<(std::ostream&, T)]: the characters a [T] is written as. *)
Class Insertable (T : Type) : Type := inserted : T -> string.

(** A default-initialised [T]: for a scalar, whatever the storage held. *)
Class DefaultInit (T : Type) : Type := default_init : T.

(** ** [optional_type<T>] *)

Record optional_type (T : Type) : Type := Build_optional {
  value : T;
  OK : bool;
  BAD : bool;
  msg : string
}.
Arguments Build_optional {T} _ _ _ _.
Arguments value {T} _.
Arguments OK {T} _.
Arguments BAD {T} _.
Arguments msg {T} _.

Section OptionalType.
Context {T : Type} `{DefaultInit T}.

(** [optional_type(T t) : value(t) { OK = true; BAD = false; }] *)
Definition optional_type_of (t : T) : optional_type T :=
  {| value := t; OK := true; BAD := false; msg := "" |}.

(** [optional_type(bool ok, std::string msg="") : msg(msg)
    { OK = ok; BAD = !ok; }]; [value] is left default-initialised. *)
Definition optional_type_flag (ok : bool) (m : string) : optional_type T :=
  {| value := default_init; OK := ok; BAD := negb ok; msg := m |}.

(** [operator T()] *)
Definition dissolve (o : optional_type T) : T := value o.
End OptionalType.

(** ** Decorators *)

(** A callable of the program takes its argument pack as one value. *)
Definition callable (Obj Args R : Type) : Type := Args -> cxx Obj R.

(** [std::ctime]: the calendar text of a [time_t]. *)
Class CTime : Type := ctime : Z -> string.

Section Decorators.
Context {Obj Args T : Type}.

(** [exception_fail_safe(func)]: the three handlers in the order they are
    written; the first one that matches the thrown object runs. *)
Definition exception_fail_safe `{DefaultInit T} (func : callable Obj Args T)
  : callable Obj Args (optional_type T) :=
  fun args =>
    try_catch
      (v <- func args ;; ret (optional_type_of v))
      (fun e =>
         match e with
         | std_exception ios_failure what =>        (* std::iostream::failure& *)
             ret (optional_type_flag false what)
         | std_exception _ what =>                  (* std::exception& *)
             ret (optional_type_flag false what)
         | non_std =>                               (* ... *)
             ret (optional_type_flag false "Exception caught: default exception")
         end).

(** [output(func)] *)
Definition output `{Insertable T} (func : callable Obj Args (optional_type T))
  : callable Obj Args (optional_type T) :=
  fun args =>
    opt <- func args ;;
    (if BAD opt
     then (cout "There was an error: " ;; cout (msg opt) ;; endl)
     else (cout "Bag cost $" ;; cout (inserted (value opt)) ;; endl)) ;;
    ret opt.

(** [log_time(func)]: the clock is read before [func] runs, the line is
    written after it returned. *)
Definition log_time `{CTime} {R : Type} (func : callable Obj Args R)
  : callable Obj Args R :=
  fun args =>
    time <- system_clock_now ;;
    opt <- func args ;;
    (cout "> Logged at " ;; cout (ctime time) ;; endl) ;;
    ret opt.

(** [classmethod(func)]: [func] is a pointer to member function, a function
    of the object it is called on and of the argument pack. *)
Definition classmethod {R : Type} (func : addr -> Args -> cxx Obj R)
  : callable Obj (addr * Args) R :=
  fun '(a, args) => func a args.
End Decorators.

(** ** [class_memberfunc<ClassType, RType, std::tuple<Args...>>] *)

(** [self] points at the owner without owning it; [f] is the
    [std::function<RType(ClassType&, Args...)>], [None] while it is empty. *)
Record class_memberfunc (ClassType RType Args : Type) : Type := Build_memberfunc {
  self : addr;
  f : option (callable ClassType (addr * Args) RType)
}.
Arguments Build_memberfunc {ClassType RType Args} _ _.
Arguments self {ClassType RType Args} _.
Arguments f {ClassType RType Args} _.

Section ClassMemberfunc.
Context {ClassType RType Args : Type}.

(** [class_memberfunc(ClassType* self) : self(self) {}] *)
Definition class_memberfunc_new (owner : addr)
  : class_memberfunc ClassType RType Args :=
  {| self := owner; f := None |}.

(** [class_memberfunc(const class_memberfunc& rhs)] *)
Definition class_memberfunc_copy (rhs : class_memberfunc ClassType RType Args)
  : class_memberfunc ClassType RType Args :=
  {| self := self rhs; f := f rhs |}.

(** [operator=(const F& rhs)]: the member after the assignment. *)
Definition assign (this : class_memberfunc ClassType RType Args)
  (rhs : callable ClassType (addr * Args) RType)
  : class_memberfunc ClassType RType Args :=
  {| self := self this; f := Some rhs |}.

(** [operator()(Args&&... args)]: [return f( *self, args...)]. *)
Definition call (this : class_memberfunc ClassType RType Args) (args : Args)
  : cxx ClassType RType :=
  match f this with
  | Some g => g (self this, args)
  | None => throw empty_function_call
  end.
End ClassMemberfunc.

(** [enable_memberfunc_traits<Class>::memberfunc<R(Args...)>]: the signature
    is given as result type and argument pack. *)
Definition memberfunc (Class R Args : Type) : Type :=
  class_memberfunc Class R Args.

(** ** [class apples] *)

(** The data members of an [apples] object, as the heap holds them.  The
    callable member is kept beside the object's address (see [apples]): a
    stored callable is a function of the world, so it cannot live inside it. *)
Record apples_data : Type := { cost_per_apple : double }.

Definition apples_world : Type := world apples_data.

Record apples : Type := Build_apples {
  this_apples : addr;
  calculate_cost : memberfunc apples_data (optional_type double) (Z * double)
}.

(** [double apples::calculate_cost_impl(int count, double weight)] *)
Definition calculate_cost_impl (this : addr) '((count, weight) : Z * double)
  : cxx apples_data double :=
  if (count <=? 0)%Z then
    throw (std_exception runtime_error "must have 1 or more apples")
  else if (weight <=? int_to_double 0)%float then
    throw (std_exception runtime_error "apples must weigh more than 0 ounces")
  else
    o <- deref this ;;
    ret (int_to_double count * weight * cost_per_apple o)%float.

Section Apples.
Context `{CTime} `{Insertable double} `{DefaultInit double}.

(** [apples::apples(double cost_per_apple)], run on the storage at [this]. *)
Definition apples_ctor (this : addr) (cost : double) : cxx apples_data apples :=
  store this {| cost_per_apple := cost |} ;;
  let calculate_cost := class_memberfunc_copy (class_memberfunc_new this) in
  ret {| this_apples := this;
         calculate_cost :=
           assign calculate_cost
             (log_time (output (exception_fail_safe
                                  (classmethod calculate_cost_impl)))) |}.

(** [apples::~apples() { }]: the body does nothing; the lifetime of the
    object at [this] ends. *)
Definition apples_dtor (this : addr) : cxx apples_data unit :=
  fun w => Returned tt (World (console w) (clock w) (delete this (heap w))).

(** [main]: [groceries1] lives at [stack_slot] until [main] returns. *)
Definition main (stack_slot : addr) : cxx apples_data Z :=
  groceries1 <- apples_ctor stack_slot 1.09%float ;;
  _ <- call (calculate_cost groceries1) (5%Z, 3.34%float) ;;
  apples_dtor stack_slot ;;
  ret 0%Z.
End Apples.

(** ** A platform to run the model on

    The theorems below hold for every [ctime], every [operator<<] and every
    content of uninitialised storage.  To evaluate the program on concrete
    inputs one platform is fixed here: a clock text that is right at the
    epoch in UTC, a placeholder rendering of doubles, zeroed storage. *)
Definition epoch_ctime : CTime :=
  fun _ => "Thu Jan  1 00:00:00 1970" ++ newline.

Definition opaque_double : Insertable double := fun _ => "<double>".

Definition zeroed_double : DefaultInit double := 0%float.

Definition boot : apples_world := World "" 0 ∅.

(** * Properties *)

(** ** Text lemmas *)

Lemma append_cons (ch : ascii) (a b : string) :
  String ch a ++ b = String ch (a ++ b).
Proof. reflexivity. Qed.

Lemma append_assoc (a b c : string) : (a ++ b) ++ c = a ++ (b ++ c).
Proof.
  induction a as [|ch a IH]; [reflexivity|].
  rewrite !append_cons. now rewrite IH.
Qed.

Lemma printed_printed {Obj} (a b : string) (w : world Obj) :
  printed b (printed a w) = printed (a ++ b) w.
Proof.
  unfold printed; cbn [console clock heap]. now rewrite append_assoc.
Qed.

Lemma has_char_append (c : ascii) (a b : string) :
  has_char c (a ++ b) = has_char c a || has_char c b.
Proof.
  induction a as [|d a IH]; [reflexivity|].
  rewrite append_cons. cbn [has_char]. rewrite IH. now rewrite orb_assoc.
Qed.

(** A text that lacks the first character of [needle] holds no occurrence
    of it. *)
Lemma occurrences_absent (c : ascii) (needle hay : string) :
  has_char c hay = false -> occurrences (String c needle) hay = 0%nat.
Proof.
  induction hay as [|d hay IH]; intros Hc.
  - reflexivity.
  - cbn [has_char] in Hc. apply orb_false_iff in Hc as [Hd Hrest].
    cbn [occurrences String.prefix].
    destruct (ascii_dec c d) as [->|_].
    + rewrite Ascii.eqb_refl in Hd. discriminate.
    + rewrite (IH Hrest). reflexivity.
Qed.

(** ** IEEE comparisons against zero *)

Lemma positive_not_leb_zero (x : double) :
  (0 <? x)%float = true -> (x <=? int_to_double 0)%float = false.
Proof.
  change (int_to_double 0) with 0%float.
  rewrite ltb_spec, leb_spec.
  change (Prim2SF 0) with (S754_zero false).
  destruct (Prim2SF x) as [s|s| |s m e]; try destruct s; cbn; congruence.
Qed.

(** ** What each decorator computes *)

Section DecoratorFacts.
Context {Obj Args T : Type} `{DefaultInit T} `{Insertable T} `{CTime}.

Lemma exception_fail_safe_run (func : callable Obj Args T) args w :
  exception_fail_safe func args w =
  match func args w with
  | Returned v w' => Returned (optional_type_of v) w'
  | Thrown (std_exception _ what) w' =>
      Returned (optional_type_flag false what) w'
  | Thrown non_std w' =>
      Returned (optional_type_flag false "Exception caught: default exception") w'
  | Undefined => Undefined
  end.
Proof.
  unfold exception_fail_safe, try_catch, bind, ret.
  destruct (func args w) as [v w'|e w'|]; try reflexivity.
  destruct e as [[] what|]; reflexivity.
Qed.

Lemma output_run (func : callable Obj Args (optional_type T)) args w :
  output func args w =
  match func args w with
  | Returned opt w' =>
      Returned opt
        (printed (if BAD opt
                  then "There was an error: " ++ msg opt ++ newline
                  else "Bag cost $" ++ inserted (value opt) ++ newline) w')
  | Thrown e w' => Thrown e w'
  | Undefined => Undefined
  end.
Proof.
  unfold output, bind, ret, endl, cout.
  destruct (func args w) as [opt w'|e w'|]; try reflexivity.
  destruct (BAD opt); now rewrite !printed_printed.
Qed.

Lemma log_time_run {R} (func : callable Obj Args R) args w :
  log_time func args w =
  match func args w with
  | Returned r w' =>
      Returned r (printed ("> Logged at " ++ ctime (clock w) ++ newline) w')
  | Thrown e w' => Thrown e w'
  | Undefined => Undefined
  end.
Proof.
  unfold log_time, bind, ret, endl, cout, system_clock_now.
  destruct (func args w) as [r w'|e w'|]; try reflexivity.
  now rewrite !printed_printed.
Qed.

(** The text [log_time] writes starts one timestamp line and no second one,
    as long as the calendar text holds no [>]. *)
Lemma one_timestamp_line (t : string) :
  has_char ">" t = false ->
  occurrences "> Logged at " ("> Logged at " ++ t ++ newline) = 1%nat.
Proof.
  intros Ht.
  assert (Hrest : occurrences "> Logged at " (t ++ newline) = 0%nat).
  { apply occurrences_absent. rewrite has_char_append, Ht. reflexivity. }
  rewrite !append_cons. cbn [occurrences String.prefix].
  change ("" ++ t ++ newline) with (t ++ newline). rewrite Hrest.
  repeat match goal with
         | |- context [ascii_dec ?a ?b] =>
             destruct (ascii_dec a b); try discriminate; try congruence
         end.
  destruct (t ++ newline); reflexivity.
Qed.
End DecoratorFacts.

(** ** The result wrapper *)

Section OptionalTypeClaims.
Context {Obj Args T : Type} `{DefaultInit T} `{Insertable T} `{CTime}.

(** C8.  Every construction of an [optional_type] sets exactly one of [OK]
    and [BAD]: from a value it is a success holding that value, from
    [(false, message)] a failure carrying the message, from
    [(true, message)] a success.  Nothing changes the flags afterwards: the
    wrapper that [exception_fail_safe] builds still has exactly one flag set
    when it has gone through [output], [log_time] and a callable member. *)
Theorem optional_type_exactly_one_flag :
  (forall t : T,
     OK (optional_type_of t) = true /\ BAD (optional_type_of t) = false
     /\ value (optional_type_of t) = t /\ dissolve (optional_type_of t) = t)
  /\ (forall m : string,
        OK (optional_type_flag (T:=T) false m) = false
        /\ BAD (optional_type_flag (T:=T) false m) = true
        /\ msg (optional_type_flag (T:=T) false m) = m)
  /\ (forall m : string,
        OK (optional_type_flag (T:=T) true m) = true
        /\ BAD (optional_type_flag (T:=T) true m) = false)
  /\ (forall (ok : bool) (m : string),
        xorb (OK (optional_type_flag (T:=T) ok m))
             (BAD (optional_type_flag (T:=T) ok m)) = true)
  /\ (forall (func : callable Obj (addr * Args) T)
             (slot : class_memberfunc Obj (optional_type T) Args)
             (args : Args) (w w' : world Obj) (r : optional_type T),
        call (assign slot (log_time (output (exception_fail_safe func))))
             args w = Returned r w' ->
        xorb (OK r) (BAD r) = true).
Proof.
  repeat split.
  - intros ok m. destruct ok; reflexivity.
  - intros func slot args w w' r. unfold call, assign; cbn [f self].
    rewrite log_time_run, output_run, exception_fail_safe_run.
    destruct (func (self slot, args) w) as [v w1|[cls what|] w1|];
      intros E; inversion E; reflexivity.
Qed.

(** ** [exception_fail_safe] *)

(** C2.  A call of [exception_fail_safe(func)] never ends in a throw.  When
    [func] returns a value the result is the success wrapper of that value;
    when it throws an object derived from [std::exception] the result is a
    failure wrapper whose message is the object's [what()]; when it throws
    anything else the result is a failure wrapper whose message contains
    "default exception".  In each case the world afterwards is the one the
    single run of [func] on the given arguments left: [func] ran once and
    the decorator added no effect of its own. *)
Theorem exception_fail_safe_never_propagates
  (func : callable Obj Args T) (args : Args) (w : world Obj) :
  (forall v w', func args w = Returned v w' ->
     exception_fail_safe func args w = Returned (optional_type_of v) w'
     /\ OK (optional_type_of v) = true /\ BAD (optional_type_of v) = false)
  /\ (forall cls what w', func args w = Thrown (std_exception cls what) w' ->
        exists r, exception_fail_safe func args w = Returned r w'
                  /\ OK r = false /\ BAD r = true /\ msg r = what)
  /\ (forall w', func args w = Thrown non_std w' ->
        exists r, exception_fail_safe func args w = Returned r w'
                  /\ OK r = false /\ BAD r = true
                  /\ mentions "default exception" (msg r) = true)
  /\ (forall e w', exception_fail_safe func args w <> Thrown e w')
  /\ (forall r w', exception_fail_safe func args w = Returned r w' ->
        (exists v, func args w = Returned v w')
        \/ (exists e, func args w = Thrown e w'))
  /\ (func args w = Undefined -> exception_fail_safe func args w = Undefined).
Proof.
  rewrite exception_fail_safe_run.
  repeat apply conj.
  - intros v w' ->. auto.
  - intros cls what w' ->. eexists. repeat split; reflexivity.
  - intros w' ->. eexists. repeat split; reflexivity.
  - intros e w'. destruct (func args w) as [v w1|[cls what|] w1|]; discriminate.
  - intros r w'.
    destruct (func args w) as [v w1|[cls what|] w1|];
      intros E; inversion E; subst; eauto.
  - intros ->. reflexivity.
Qed.
End OptionalTypeClaims.

(** ** [log_time] and [output] *)

Section PrintingDecoratorClaims.
Context {Obj Args T : Type} `{Insertable T} `{CTime}.

(** C5.  Whenever the inner callable returns a wrapper, success or failure,
    [log_time] returns that same wrapper (value, flags and message) and
    appends to standard output exactly the text
    "> Logged at <ctime of the clock read before the call>" and a line end.
    That text holds one timestamp line and no more, given that the calendar
    text [ctime] produced has no [>] in it. *)
Theorem log_time_one_line_passthrough
  (func : callable Obj Args (optional_type T)) (args : Args)
  (w w1 : world Obj) (opt : optional_type T) :
  func args w = Returned opt w1 ->
  exists r : optional_type T,
    log_time func args w
    = Returned r (printed ("> Logged at " ++ ctime (clock w) ++ newline) w1)
    /\ r = opt
    /\ value r = value opt /\ OK r = OK opt /\ BAD r = BAD opt
    /\ msg r = msg opt
    /\ (has_char ">" (ctime (clock w)) = false ->
        occurrences "> Logged at "
          ("> Logged at " ++ ctime (clock w) ++ newline) = 1%nat).
Proof.
  intros Hfunc. exists opt.
  rewrite log_time_run, Hfunc.
  repeat split. apply one_timestamp_line.
Qed.

(** C6.  Whenever the inner callable returns a wrapper, [output] returns it
    unchanged and appends one line to standard output: for a failure
    ([BAD] set) "There was an error: <message>", for a success
    "Bag cost $<value>".  The failure line is the same whatever the [value]
    field holds. *)
Theorem output_reports_and_returns
  (func : callable Obj Args (optional_type T)) (args : Args)
  (w w1 : world Obj) (opt : optional_type T) :
  func args w = Returned opt w1 ->
  (BAD opt = true ->
     output func args w
     = Returned opt (printed ("There was an error: " ++ msg opt ++ newline) w1))
  /\ (BAD opt = false ->
        output func args w
        = Returned opt
            (printed ("Bag cost $" ++ inserted (value opt) ++ newline) w1))
  /\ (BAD opt = true ->
        forall v' : T,
          let opt' := Build_optional v' (OK opt) (BAD opt) (msg opt) in
          output (fun _ _ => Returned opt' w1) args w
          = Returned opt'
              (printed ("There was an error: " ++ msg opt ++ newline) w1)).
Proof.
  intros Hfunc. repeat apply conj.
  - intros Hbad. rewrite output_run, Hfunc, Hbad. reflexivity.
  - intros Hbad. rewrite output_run, Hfunc, Hbad. reflexivity.
  - intros Hbad v' opt'. rewrite output_run. subst opt'; cbn [BAD msg].
    rewrite Hbad. reflexivity.
Qed.
End PrintingDecoratorClaims.

(** ** [class_memberfunc] *)

Section ClassMemberfuncClaims.
Context {ClassType RType Args : Type}.

(** C7.  Calling a callable member that holds a callable [g] runs [g] on the
    owner the member points at, followed by the explicit arguments, and ends
    exactly as [g] does: same result, same throw, same world.  With
    [classmethod(m)] stored, that is [m] called on the owner. *)
Theorem call_forwards_owner_then_arguments
  (slot : class_memberfunc ClassType RType Args)
  (g : callable ClassType (addr * Args) RType)
  (args : Args) (w : world ClassType) :
  f slot = Some g ->
  call slot args w = g (self slot, args) w
  /\ call (assign slot g) args w = g (self slot, args) w
  /\ (forall m : addr -> Args -> cxx ClassType RType,
        call (assign slot (classmethod m)) args w = m (self slot) args w).
Proof.
  intros Hf. unfold call. rewrite Hf. repeat split.
Qed.

(** C9.  The copy constructor copies the owner pointer and the stored
    callable as they are: the copy holds the source's callable and the
    source's owner pointer, so a call through the copy hands the source's
    owner to the stored callable; a stored callable that returns the owner
    it is handed returns, through the copy, the owner the source was
    constructed on. *)
Theorem class_memberfunc_copy_keeps_owner
  (rhs : class_memberfunc ClassType RType Args) :
  self (class_memberfunc_copy rhs) = self rhs
  /\ f (class_memberfunc_copy rhs) = f rhs
  /\ (forall (args : Args) (w : world ClassType),
        call (class_memberfunc_copy rhs) args w = call rhs args w)
  /\ (forall (g : callable ClassType (addr * Args) RType)
             (args : Args) (w : world ClassType),
        call (class_memberfunc_copy (assign rhs g)) args w
        = g (self rhs, args) w)
  /\ (forall (owner : addr) (args : Args) (w : world ClassType),
        call (class_memberfunc_copy
                (assign (RType:=addr) (class_memberfunc_new owner)
                        (fun '(a, _) => ret a)))
             args w
        = Returned owner w).
Proof.
  repeat split.
Qed.

(** C10.  Calling a callable member that was constructed on an owner and
    never assigned throws [std::bad_function_call], leaving the world as it
    was; the same holds for a copy of it.  The member translates no fault:
    a throw of the stored callable leaves the call as it is. *)
Theorem call_unassigned_throws_bad_function_call
  (owner : addr) (args : Args) (w : world ClassType) :
  call (class_memberfunc_new (RType:=RType) owner) args w
  = Thrown (std_exception bad_function_call "bad_function_call") w
  /\ call (class_memberfunc_copy (class_memberfunc_new (RType:=RType) owner))
          args w
     = Thrown (std_exception bad_function_call "bad_function_call") w
  /\ (forall (slot : class_memberfunc ClassType RType Args)
             (g : callable ClassType (addr * Args) RType)
             (e : thrown) (w' : world ClassType),
        g (self slot, args) w = Thrown e w' ->
        call (assign slot g) args w = Thrown e w').
Proof.
  repeat split. intros slot g e w' Hg. exact Hg.
Qed.
End ClassMemberfuncClaims.

(** ** [apples::calculate_cost] *)

Section ApplesClaims.
Context `{CTime} `{Insertable double} `{DefaultInit double}.

Lemma calculate_cost_impl_count (this : addr) count weight (w : apples_world) :
  count <= 0 ->
  calculate_cost_impl this (count, weight) w
  = Thrown (std_exception runtime_error "must have 1 or more apples") w.
Proof.
  intros Hc. unfold calculate_cost_impl.
  destruct (Z.leb_spec count 0); [reflexivity | lia].
Qed.

Lemma calculate_cost_impl_weight (this : addr) count weight (w : apples_world) :
  0 < count -> (weight <=? 0)%float = true ->
  calculate_cost_impl this (count, weight) w
  = Thrown (std_exception runtime_error
              "apples must weigh more than 0 ounces") w.
Proof.
  intros Hc Hw. unfold calculate_cost_impl.
  destruct (Z.leb_spec count 0); [lia|].
  change (int_to_double 0) with 0%float. rewrite Hw. reflexivity.
Qed.

Lemma calculate_cost_impl_value (this : addr) c count weight (w : apples_world) :
  heap w !! this = Some {| cost_per_apple := c |} ->
  0 < count -> (0 <? weight)%float = true ->
  calculate_cost_impl this (count, weight) w
  = Returned (int_to_double count * weight * c)%float w.
Proof.
  intros Hlive Hc Hw. unfold calculate_cost_impl.
  destruct (Z.leb_spec count 0); [lia|].
  rewrite (positive_not_leb_zero _ Hw).
  unfold bind, deref, ret. rewrite Hlive. reflexivity.
Qed.

(** What the constructor leaves: the data member in the heap and the
    decorated member function in the callable member. *)
Lemma apples_ctor_run (this : addr) (c : double) (w0 : apples_world) a w1 :
  apples_ctor this c w0 = Returned a w1 ->
  w1 = World (console w0) (clock w0) (<[this := {| cost_per_apple := c |}]> (heap w0))
  /\ forall args w,
       call (calculate_cost a) args w
       = log_time (output (exception_fail_safe
                             (classmethod calculate_cost_impl)))
           (this, args) w.
Proof.
  unfold apples_ctor, bind, store, ret. intros E. inversion E; subst.
  split; reflexivity.
Qed.

(** C1.  On an [apples] object constructed with unit cost [c] and alive in
    the current world, [calculate_cost(count, weight)] with [count > 0] and
    [weight > 0] returns a success wrapper ([OK] set, [BAD] clear) whose
    value is the binary64 product [count * weight * c], after writing the
    cost line and the timestamp line. *)
Theorem calculate_cost_of_positive_inputs
  (this : addr) (c : double) (w0 w1 w : apples_world) (a : apples)
  (count : Z) (weight : double) :
  apples_ctor this c w0 = Returned a w1 ->
  heap w !! this = Some {| cost_per_apple := c |} ->
  0 < count ->
  (0 <? weight)%float = true ->
  exists (r : optional_type double) (w' : apples_world),
    call (calculate_cost a) (count, weight) w = Returned r w'
    /\ OK r = true /\ BAD r = false
    /\ value r = (int_to_double count * weight * c)%float
    /\ w' = printed ("> Logged at " ++ ctime (clock w) ++ newline)
              (printed ("Bag cost $" ++ inserted (value r) ++ newline) w).
Proof.
  intros Hctor Hlive Hcount Hweight.
  destruct (apples_ctor_run _ _ _ _ _ Hctor) as [_ Hcall].
  do 2 eexists. rewrite Hcall.
  rewrite log_time_run, output_run, exception_fail_safe_run.
  cbn [classmethod].
  rewrite (calculate_cost_impl_value this c) by assumption.
  cbn [optional_type_of BAD]. repeat split.
Qed.

(** C3.  On an [apples] object, [calculate_cost(count, weight)] with
    [count <= 0] returns, for every weight, a failure wrapper ([OK] clear,
    [BAD] set) whose message is "must have 1 or more apples". *)
Theorem calculate_cost_rejects_count
  (this : addr) (c : double) (w0 w1 w : apples_world) (a : apples)
  (count : Z) (weight : double) :
  apples_ctor this c w0 = Returned a w1 ->
  count <= 0 ->
  exists (r : optional_type double) (w' : apples_world),
    call (calculate_cost a) (count, weight) w = Returned r w'
    /\ OK r = false /\ BAD r = true
    /\ msg r = "must have 1 or more apples"
    /\ mentions "1 or more apples" (msg r) = true.
Proof.
  intros Hctor Hcount.
  destruct (apples_ctor_run _ _ _ _ _ Hctor) as [_ Hcall].
  do 2 eexists. rewrite Hcall.
  rewrite log_time_run, output_run, exception_fail_safe_run.
  cbn [classmethod].
  rewrite calculate_cost_impl_count by assumption.
  repeat split.
Qed.

(** C4, as the code has it.  On an [apples] object,
    [calculate_cost(count, weight)] with [weight <= 0] returns a failure
    wrapper for every count.  Its message is "apples must weigh more than 0
    ounces" when [count > 0]; when [count <= 0] the count is rejected first
    and the message is the one about the count. *)
Theorem calculate_cost_rejects_weight
  (this : addr) (c : double) (w0 w1 w : apples_world) (a : apples)
  (count : Z) (weight : double) :
  apples_ctor this c w0 = Returned a w1 ->
  (weight <=? 0)%float = true ->
  exists (r : optional_type double) (w' : apples_world),
    call (calculate_cost a) (count, weight) w = Returned r w'
    /\ OK r = false /\ BAD r = true
    /\ (0 < count ->
        msg r = "apples must weigh more than 0 ounces"
        /\ mentions "weigh more than 0" (msg r) = true)
    /\ (count <= 0 ->
        msg r = "must have 1 or more apples"
        /\ mentions "weigh more than 0" (msg r) = false).
Proof.
  intros Hctor Hweight.
  destruct (apples_ctor_run _ _ _ _ _ Hctor) as [_ Hcall].
  destruct (Z_lt_le_dec 0 count) as [Hpos|Hnonpos].
  - do 2 eexists. rewrite Hcall.
    rewrite log_time_run, output_run, exception_fail_safe_run.
    cbn [classmethod].
    rewrite calculate_cost_impl_weight by assumption.
    repeat split; lia.
  - do 2 eexists. rewrite Hcall.
    rewrite log_time_run, output_run, exception_fail_safe_run.
    cbn [classmethod].
    rewrite calculate_cost_impl_count by assumption.
    repeat split; lia.
Qed.
End ApplesClaims.

(** * The program on concrete inputs *)

(** [log_time] around a callable that returns a failure wrapper. *)
Lemma log_time_one_line_passthrough_witness :
  exists r : optional_type double,
    log_time (H := epoch_ctime)
      (fun _ : unit => ret (optional_type_flag (H := zeroed_double) false "boom"))
      tt boot
    = Returned r
        (printed ("> Logged at " ++ epoch_ctime 0 ++ newline) boot)
    /\ r = optional_type_flag (H := zeroed_double) false "boom"
    /\ value r = 0%float /\ OK r = false /\ BAD r = true
    /\ msg r = "boom"
    /\ (has_char ">" (epoch_ctime 0) = false ->
        occurrences "> Logged at "
          ("> Logged at " ++ epoch_ctime 0 ++ newline) = 1%nat).
Proof.
  apply (@log_time_one_line_passthrough apples_data unit double epoch_ctime
           (fun _ : unit => ret (optional_type_flag (H := zeroed_double) false "boom"))
           tt boot boot (optional_type_flag (H := zeroed_double) false "boom")).
  reflexivity.
Defined.

(** [output] around a callable that returns a success wrapper. *)
Lemma output_reports_and_returns_witness :
  output (H := opaque_double)
    (fun _ : unit => ret (optional_type_of 2%float)) tt boot
  = Returned (optional_type_of 2%float)
      (printed ("Bag cost $" ++ opaque_double 2%float ++ newline) boot).
Proof.
  apply (@output_reports_and_returns apples_data unit double opaque_double
           (fun _ : unit => ret (optional_type_of 2%float))
           tt boot boot (optional_type_of 2%float)).
  - reflexivity.
  - reflexivity.
Defined.

(** A callable member of the object at address 7 that holds a callable
    returning the owner it is handed. *)
Lemma call_forwards_owner_then_arguments_witness :
  call (ClassType := apples_data)
       (Build_memberfunc 7%positive
          (Some (fun '((a, _) : addr * unit) => ret a)))
       tt boot
  = Returned 7%positive boot.
Proof.
  apply (@call_forwards_owner_then_arguments apples_data addr unit
           (Build_memberfunc 7%positive
              (Some (fun '((a, _) : addr * unit) => ret a)))
           (fun '((a, _) : addr * unit) => ret a) tt boot).
  reflexivity.
Defined.

(** [main]'s call, [calculate_cost(5, 3.34)] at unit cost 1.09. *)
Lemma calculate_cost_of_positive_inputs_witness :
  match apples_ctor (H := epoch_ctime) (H0 := opaque_double)
          (H1 := zeroed_double) 1%positive 1.09%float boot with
  | Returned a w1 =>
      exists (r : optional_type double) (w' : apples_world),
        call (calculate_cost a) (5, 3.34%float) w1 = Returned r w'
        /\ OK r = true /\ BAD r = false
        /\ value r = (int_to_double 5 * 3.34 * 1.09)%float
        /\ w' = printed ("> Logged at " ++ epoch_ctime (clock w1) ++ newline)
                  (printed ("Bag cost $" ++ opaque_double (value r) ++ newline) w1)
  | _ => False
  end.
Proof.
  cbv [apples_ctor bind store ret].
  eapply (@calculate_cost_of_positive_inputs epoch_ctime opaque_double
            zeroed_double 1%positive 1.09%float boot).
  - reflexivity.
  - vm_compute. reflexivity.
  - lia.
  - reflexivity.
Defined.

(** [calculate_cost(0, 3.34)]. *)
Lemma calculate_cost_rejects_count_witness :
  match apples_ctor (H := epoch_ctime) (H0 := opaque_double)
          (H1 := zeroed_double) 1%positive 1.09%float boot with
  | Returned a w1 =>
      exists (r : optional_type double) (w' : apples_world),
        call (calculate_cost a) (0, 3.34%float) w1 = Returned r w'
        /\ OK r = false /\ BAD r = true
        /\ msg r = "must have 1 or more apples"
        /\ mentions "1 or more apples" (msg r) = true
  | _ => False
  end.
Proof.
  cbv [apples_ctor bind store ret].
  eapply (@calculate_cost_rejects_count epoch_ctime opaque_double
            zeroed_double 1%positive 1.09%float boot).
  - reflexivity.
  - lia.
Defined.

(** [calculate_cost(5, 0)]. *)
Lemma calculate_cost_rejects_weight_witness :
  match apples_ctor (H := epoch_ctime) (H0 := opaque_double)
          (H1 := zeroed_double) 1%positive 1.09%float boot with
  | Returned a w1 =>
      exists (r : optional_type double) (w' : apples_world),
        call (calculate_cost a) (5, 0%float) w1 = Returned r w'
        /\ OK r = false /\ BAD r = true
        /\ (0 < 5 ->
            msg r = "apples must weigh more than 0 ounces"
            /\ mentions "weigh more than 0" (msg r) = true)
        /\ (5 <= 0 ->
            msg r = "must have 1 or more apples"
            /\ mentions "weigh more than 0" (msg r) = false)
  | _ => False
  end.
Proof.
  cbv [apples_ctor bind store ret].
  eapply (@calculate_cost_rejects_weight epoch_ctime opaque_double
            zeroed_double 1%positive 1.09%float boot).
  - reflexivity.
  - reflexivity.
Defined.

(** [calculate_cost(0, 0)]: the weight is not above zero, yet the failure
    message is the one about the count and does not mention the weight. *)
Lemma calculate_cost_weight_message_counterexample :
  match apples_ctor (H := epoch_ctime) (H0 := opaque_double)
          (H1 := zeroed_double) 1%positive 1.09%float boot with
  | Returned a w1 =>
      (0 <=? 0)%float = true
      /\ exists (r : optional_type double) (w' : apples_world),
           call (calculate_cost a) (0, 0%float) w1 = Returned r w'
           /\ BAD r = true
           /\ msg r = "must have 1 or more apples"
           /\ mentions "weigh more than 0" (msg r) = false
  | _ => False
  end.
Proof.
  cbv [apples_ctor bind store ret].
  split; [reflexivity|].
  do 2 eexists. split; [vm_compute; reflexivity|].
  repeat split.
Qed.

(** * Beyond the result of a single call *)

(** ** How the decorators compose *)

Section DecoratorComposition.
Context {Obj Args T : Type} `{DefaultInit T} `{Insertable T} `{CTime}.

(** X1.  [output] and [log_time] catch nothing.  When the inner callable throws,
    each of them, and [log_time] around [output], ends in the same throw
    with the world the inner callable left: no report line and no timestamp
    line is written. *)
Theorem printing_decorators_pass_throw
  (func : callable Obj Args (optional_type T)) (args : Args)
  (w w1 : world Obj) (e : thrown) :
  func args w = Thrown e w1 ->
  output func args w = Thrown e w1
  /\ log_time func args w = Thrown e w1
  /\ log_time (output func) args w = Thrown e w1.
Proof.
  intros Hfunc.
  assert (Hout : output func args w = Thrown e w1)
    by (rewrite output_run, Hfunc; reflexivity).
  repeat split.
  - exact Hout.
  - rewrite log_time_run, Hfunc. reflexivity.
  - rewrite log_time_run, Hout. reflexivity.
Qed.

(** X2.  The chain the constructor builds, around any callable whose call is
    defined: it returns the wrapper [exception_fail_safe] made, never
    throws, and has written the report line first and the timestamp line
    after it, both after whatever the callable wrote. *)
Theorem decorated_chain_reports_then_logs
  (func : callable Obj Args T) (args : Args) (w : world Obj) :
  func args w <> Undefined ->
  exists (r : optional_type T) (w1 : world Obj),
    exception_fail_safe func args w = Returned r w1
    /\ log_time (output (exception_fail_safe func)) args w
       = Returned r
           (printed
              ((if BAD r
                then "There was an error: " ++ msg r ++ newline
                else "Bag cost $" ++ inserted (value r) ++ newline)
               ++ "> Logged at " ++ ctime (clock w) ++ newline) w1).
Proof.
  intros Hdef.
  rewrite log_time_run, output_run, exception_fail_safe_run.
  destruct (func args w) as [v w1|[cls what|] w1|]; [| | |congruence];
    do 2 eexists; (split; [reflexivity|]);
    rewrite printed_printed; reflexivity.
Qed.

(** X3.  Where [exception_fail_safe] sits decides whether a throw is logged.
    Around [log_time] it turns a throw of the callable into a failure
    wrapper and nothing is written; inside [log_time], as the constructor
    has it, the same wrapper comes back and the timestamp line is written. *)
Theorem exception_fail_safe_inside_log_time
  (func : callable Obj Args T) (args : Args) (w w1 : world Obj) (e : thrown) :
  func args w = Thrown e w1 ->
  exists r : optional_type T,
    OK r = false /\ BAD r = true
    /\ exception_fail_safe (log_time func) args w = Returned r w1
    /\ log_time (exception_fail_safe func) args w
       = Returned r (printed ("> Logged at " ++ ctime (clock w) ++ newline) w1).
Proof.
  intros Hfunc.
  rewrite exception_fail_safe_run, !log_time_run, exception_fail_safe_run, Hfunc.
  destruct e as [cls what|].
  - exists (optional_type_flag false what). repeat split.
  - exists (optional_type_flag false "Exception caught: default exception").
    repeat split.
Qed.
End DecoratorComposition.

Section DoubleWrapping.
Context {Obj Args T : Type} `{DefaultInit T} `{DefaultInit (optional_type T)}.

End DoubleWrapping.

(** ** The life of an [apples] object *)

(** IEEE: a NaN is not below or equal to zero, and a product with a NaN
    factor is a NaN. *)
Lemma is_nan_Prim2SF (x : double) :
  PrimFloat.is_nan x = true -> Prim2SF x = S754_nan.
Proof.
  unfold PrimFloat.is_nan. rewrite FloatAxioms.eqb_spec.
  destruct (Prim2SF x) as [s|s| |s m e]; try reflexivity.
  - destruct s; discriminate.
  - destruct s; discriminate.
  - unfold SFeqb, SFcompare.
    rewrite Z.compare_refl, Pos.compare_cont_refl.
    destruct s; discriminate.
Qed.

Lemma Prim2SF_is_nan (x : double) :
  Prim2SF x = S754_nan -> PrimFloat.is_nan x = true.
Proof.
  intros E. unfold PrimFloat.is_nan. rewrite FloatAxioms.eqb_spec, E. reflexivity.
Qed.

Lemma nan_not_leb_zero (x : double) :
  PrimFloat.is_nan x = true -> (x <=? 0)%float = false.
Proof.
  intros Hx. rewrite leb_spec, (is_nan_Prim2SF _ Hx). reflexivity.
Qed.

Lemma mul_nan_l (x y : double) :
  PrimFloat.is_nan x = true -> PrimFloat.is_nan (x * y) = true.
Proof.
  intros Hx. apply Prim2SF_is_nan.
  rewrite mul_spec, (is_nan_Prim2SF _ Hx). reflexivity.
Qed.

Lemma mul_nan_r (x y : double) :
  PrimFloat.is_nan y = true -> PrimFloat.is_nan (x * y) = true.
Proof.
  intros Hy. apply Prim2SF_is_nan.
  rewrite mul_spec, (is_nan_Prim2SF _ Hy).
  destruct (Prim2SF x) as [s|s| |s m e]; reflexivity.
Qed.

Section ApplesLife.
Context `{CTime} `{Insertable double} `{DefaultInit double}.

(** The member function by cases, in the order the source tests them. *)
Lemma calculate_cost_impl_run (this : addr) count weight (w : apples_world) :
  calculate_cost_impl this (count, weight) w
  = if (count <=? 0)%Z then
      Thrown (std_exception runtime_error "must have 1 or more apples") w
    else if (weight <=? 0)%float then
      Thrown (std_exception runtime_error
                "apples must weigh more than 0 ounces") w
    else
      match heap w !! this with
      | Some o =>
          Returned (int_to_double count * weight * cost_per_apple o)%float w
      | None => Undefined
      end.
Proof.
  unfold calculate_cost_impl.
  change (int_to_double 0) with 0%float.
  destruct (count <=? 0)%Z; [reflexivity|].
  destruct (weight <=? 0)%float; [reflexivity|].
  unfold bind, deref, ret. destruct (heap w !! this); reflexivity.
Qed.

(** The decorated call by the same cases. *)
Lemma calculate_cost_run (this : addr) (c : double) (w0 w1 w : apples_world)
  (a : apples) count weight :
  apples_ctor this c w0 = Returned a w1 ->
  call (calculate_cost a) (count, weight) w
  = let stamp := "> Logged at " ++ ctime (clock w) ++ newline in
    let failed (m : string) :=
      Returned (optional_type_flag false m)
        (printed (("There was an error: " ++ m ++ newline) ++ stamp) w) in
    if (count <=? 0)%Z then failed "must have 1 or more apples"
    else if (weight <=? 0)%float then
      failed "apples must weigh more than 0 ounces"
    else
      match heap w !! this with
      | Some o =>
          let v := (int_to_double count * weight * cost_per_apple o)%float in
          Returned (optional_type_of v)
            (printed (("Bag cost $" ++ inserted v ++ newline) ++ stamp) w)
      | None => Undefined
      end.
Proof.
  intros Hctor.
  destruct (apples_ctor_run _ _ _ _ _ Hctor) as [_ Hcall].
  rewrite Hcall, log_time_run, output_run, exception_fail_safe_run.
  cbn [classmethod]. rewrite calculate_cost_impl_run. cbv zeta.
  destruct (count <=? 0)%Z;
    [cbn [optional_type_flag BAD msg negb]; now rewrite printed_printed|].
  destruct (weight <=? 0)%float;
    [cbn [optional_type_flag BAD msg negb]; now rewrite printed_printed|].
  destruct (heap w !! this); [|reflexivity].
  cbn [optional_type_of BAD value]. now rewrite printed_printed.
Qed.
End ApplesLife.

Section ApplesLifeFacts.
Context `{CTime} `{Insertable double} `{DefaultInit double}.

(** X5.  On a live [apples] object every call of [calculate_cost] returns.  The
    wrapper is a success exactly when [count > 0] and not [weight <= 0], and
    [BAD] is the opposite of [OK].  Converted to [double] it gives the
    product on success and the wrapper's default-initialised [value]
    otherwise: the conversion looks at no flag. *)
Theorem calculate_cost_succeeds_iff_valid
  (this : addr) (c : double) (w0 w1 w : apples_world) (a : apples)
  (count : Z) (weight : double) :
  apples_ctor this c w0 = Returned a w1 ->
  heap w !! this = Some {| cost_per_apple := c |} ->
  exists (r : optional_type double) (w' : apples_world),
    call (calculate_cost a) (count, weight) w = Returned r w'
    /\ OK r = (0 <? count)%Z && negb (weight <=? 0)%float
    /\ BAD r = negb (OK r)
    /\ dissolve r = if OK r
                    then (int_to_double count * weight * c)%float
                    else default_init.
Proof.
  intros Hctor Hlive.
  rewrite (calculate_cost_run _ _ _ _ _ _ count weight Hctor). cbv zeta.
  rewrite Hlive, (Z.ltb_antisym count 0).
  destruct (count <=? 0)%Z; [do 2 eexists; repeat split|].
  destruct (weight <=? 0)%float; do 2 eexists; repeat split.
Qed.

(** X6.  A call of [calculate_cost] never ends in a throw, and when it returns it
    has changed nothing but standard output: the heap and the clock are as
    before, and the console has grown by the report line of the result
    followed by the timestamp line. *)
Theorem calculate_cost_only_prints
  (this : addr) (c : double) (w0 w1 w : apples_world) (a : apples)
  (count : Z) (weight : double) :
  apples_ctor this c w0 = Returned a w1 ->
  (forall e w', call (calculate_cost a) (count, weight) w <> Thrown e w')
  /\ (forall r w',
        call (calculate_cost a) (count, weight) w = Returned r w' ->
        heap w' = heap w /\ clock w' = clock w
        /\ console w'
           = console w
             ++ ((if BAD r
                  then "There was an error: " ++ msg r ++ newline
                  else "Bag cost $" ++ inserted (value r) ++ newline)
                 ++ "> Logged at " ++ ctime (clock w) ++ newline)).
Proof.
  intros Hctor.
  rewrite (calculate_cost_run _ _ _ _ _ _ count weight Hctor). cbv zeta.
  destruct (count <=? 0)%Z;
    [|destruct (weight <=? 0)%float; [|destruct (heap w !! this)]];
    (split; [intros e w'; discriminate|]);
    intros r w' E; inversion E; subst; repeat split.
Qed.

(** X7.  A NaN weight passes both guards, since a NaN is not [<= 0]: with
    [count > 0] the call on a live object is a success whose value is a
    NaN. *)
Theorem calculate_cost_of_nan_weight
  (this : addr) (c : double) (w0 w1 w : apples_world) (a : apples)
  (count : Z) (weight : double) :
  apples_ctor this c w0 = Returned a w1 ->
  heap w !! this = Some {| cost_per_apple := c |} ->
  0 < count ->
  PrimFloat.is_nan weight = true ->
  exists (r : optional_type double) (w' : apples_world),
    call (calculate_cost a) (count, weight) w = Returned r w'
    /\ OK r = true /\ BAD r = false
    /\ PrimFloat.is_nan (value r) = true.
Proof.
  intros Hctor Hlive Hcount Hnan.
  rewrite (calculate_cost_run _ _ _ _ _ _ count weight Hctor). cbv zeta.
  rewrite Hlive, (nan_not_leb_zero _ Hnan).
  destruct (Z.leb_spec count 0); [lia|].
  do 2 eexists. repeat split. cbn [value optional_type_of cost_per_apple].
  apply mul_nan_l, mul_nan_r, Hnan.
Qed.

(** X8.  The callable member does not keep its owner alive.  Once the object is
    destroyed, a call with arguments that pass both guards, through the
    member or through a copy of it, reads a dead object: it has no defined
    behaviour. *)
Theorem call_after_destruction_is_undefined
  (this : addr) (c : double) (w0 w1 w : apples_world) (a : apples)
  (count : Z) (weight : double) :
  apples_ctor this c w0 = Returned a w1 ->
  0 < count ->
  (weight <=? 0)%float = false ->
  (apples_dtor this ;; call (calculate_cost a) (count, weight)) w = Undefined
  /\ (apples_dtor this ;;
      call (class_memberfunc_copy (calculate_cost a)) (count, weight)) w
     = Undefined.
Proof.
  intros Hctor Hcount Hweight.
  assert (Hcopy : forall w2, call (class_memberfunc_copy (calculate_cost a))
                               (count, weight) w2
                             = call (calculate_cost a) (count, weight) w2)
    by reflexivity.
  unfold bind, apples_dtor. rewrite Hcopy.
  rewrite (calculate_cost_run _ _ _ _ _ _ count weight Hctor). cbv zeta.
  cbn [heap]. rewrite lookup_delete_eq, Hweight.
  destruct (Z.leb_spec count 0); [lia|]. split; reflexivity.
Qed.

(** X9.  Constructing a second object elsewhere leaves the first as it was: each
    member charges the unit cost of the object it was constructed on, and a
    copy of the first object's member still charges the first object's. *)
Theorem second_object_leaves_first_intact
  (p q : addr) (c c' : double) (w0 w1 w2 : apples_world) (a b : apples)
  (count : Z) (weight : double) :
  p <> q ->
  apples_ctor p c w0 = Returned a w1 ->
  apples_ctor q c' w1 = Returned b w2 ->
  0 < count ->
  (0 <? weight)%float = true ->
  exists (w' : apples_world),
    call (calculate_cost a) (count, weight) w2
    = Returned (optional_type_of (int_to_double count * weight * c)%float) w'
    /\ call (class_memberfunc_copy (calculate_cost a)) (count, weight) w2
       = Returned (optional_type_of (int_to_double count * weight * c)%float) w'
    /\ exists (w'' : apples_world),
         call (calculate_cost b) (count, weight) w2
         = Returned (optional_type_of (int_to_double count * weight * c')%float)
             w''.
Proof.
  intros Hpq Ha Hb Hcount Hweight.
  destruct (apples_ctor_run _ _ _ _ _ Ha) as [-> _].
  destruct (apples_ctor_run _ _ _ _ _ Hb) as [-> _].
  assert (Hcopy : forall w2, call (class_memberfunc_copy (calculate_cost a))
                               (count, weight) w2
                             = call (calculate_cost a) (count, weight) w2)
    by reflexivity.
  rewrite Hcopy.
  rewrite (calculate_cost_run _ _ _ _ _ _ count weight Ha).
  rewrite (calculate_cost_run _ _ _ _ _ _ count weight Hb). cbv zeta.
  cbn [heap].
  rewrite lookup_insert_eq, lookup_insert_ne, lookup_insert_eq by congruence.
  pose proof (positive_not_leb_zero _ Hweight) as Hw.
  change (int_to_double 0) with 0%float in Hw. rewrite Hw.
  destruct (Z.leb_spec count 0); [lia|].
  eexists. repeat split. eexists. reflexivity.
Qed.

(** X10.  Construct, call, destroy: on storage that held no object, whatever the
    arguments, the sequence returns and leaves the heap and the clock as
    they were. *)
Theorem construct_call_destroy_restores_heap
  (this : addr) (c : double) (w : apples_world) (count : Z) (weight : double) :
  heap w !! this = None ->
  exists (w' : apples_world),
    (a <- apples_ctor this c ;;
     _ <- call (calculate_cost a) (count, weight) ;;
     apples_dtor this) w = Returned tt w'
    /\ heap w' = heap w /\ clock w' = clock w.
Proof.
  intros Hfree.
  destruct (apples_ctor this c w) as [a w1| |] eqn:Hctor;
    [|discriminate Hctor..].
  unfold bind at 1. rewrite Hctor.
  destruct (apples_ctor_run _ _ _ _ _ Hctor) as [Hw1 _].
  unfold bind.
  rewrite (calculate_cost_run _ _ _ _ _ _ count weight Hctor). cbv zeta.
  rewrite Hw1. cbn [heap clock]. rewrite lookup_insert_eq.
  destruct (count <=? 0)%Z; [|destruct (weight <=? 0)%float];
    eexists; (split; [reflexivity|]); cbn [heap clock printed];
    rewrite delete_insert_id by assumption; split; reflexivity.
Qed.

(** X11.  [main] returns 0 from every world, on every platform and whichever
    storage holds [groceries1]: it never throws.  It has written the cost
    line for [5 * 3.34 * 1.09], then the timestamp line, and [groceries1] is
    gone from the heap. *)
Theorem main_returns_zero (stack_slot : addr) (w : apples_world) :
  exists (w' : apples_world),
    main stack_slot w = Returned 0 w'
    /\ console w'
       = console w
         ++ (("Bag cost $" ++ inserted 18.202999999999999%float ++ newline)
             ++ "> Logged at " ++ ctime (clock w) ++ newline)
    /\ clock w' = clock w
    /\ heap w' = delete stack_slot (heap w).
Proof.
  unfold main.
  destruct (apples_ctor stack_slot 1.09%float w) as [a w1| |] eqn:Hctor;
    [|discriminate Hctor..].
  unfold bind at 1. rewrite Hctor.
  destruct (apples_ctor_run _ _ _ _ _ Hctor) as [Hw1 _].
  unfold bind.
  rewrite (calculate_cost_run _ _ _ _ _ _ 5 3.34%float Hctor). cbv zeta.
  rewrite Hw1. cbn [heap clock]. rewrite lookup_insert_eq.
  change (5 <=? 0)%Z with false. change (3.34 <=? 0)%float with false.
  cbn [cost_per_apple].
  change (int_to_double 5 * 3.34 * 1.09)%float with 18.202999999999999%float.
  eexists. split; [reflexivity|]. cbn [heap clock console printed apples_dtor ret].
  rewrite delete_insert_eq. repeat split.
Qed.
End ApplesLifeFacts.

(** ** The same on concrete inputs *)

(** A callable that throws an [int]. *)
Lemma printing_decorators_pass_throw_witness :
  output (H := opaque_double)
    (fun _ : unit => throw (A := optional_type double) non_std) tt boot
  = Thrown non_std boot
  /\ log_time (H := epoch_ctime)
       (fun _ : unit => throw (A := optional_type double) non_std) tt boot
     = Thrown non_std boot
  /\ log_time (H := epoch_ctime)
       (output (H := opaque_double)
          (fun _ : unit => throw (A := optional_type double) non_std)) tt boot
     = Thrown non_std boot.
Proof.
  apply (@printing_decorators_pass_throw apples_data unit double
           opaque_double epoch_ctime
           (fun _ : unit => throw (A := optional_type double) non_std)
           tt boot boot non_std).
  reflexivity.
Defined.

(** The chain around a callable that throws a [std::runtime_error]. *)
Lemma decorated_chain_reports_then_logs_witness :
  exists (r : optional_type double) (w1 : apples_world),
    exception_fail_safe (H := zeroed_double)
      (fun _ : unit => throw (std_exception runtime_error "boom")) tt boot
    = Returned r w1
    /\ log_time (H := epoch_ctime)
         (output (H := opaque_double)
            (exception_fail_safe (H := zeroed_double)
               (fun _ : unit => throw (std_exception runtime_error "boom"))))
         tt boot
       = Returned r
           (printed
              ((if BAD r
                then "There was an error: " ++ msg r ++ newline
                else "Bag cost $" ++ opaque_double (value r) ++ newline)
               ++ "> Logged at " ++ epoch_ctime (clock boot) ++ newline) w1).
Proof.
  apply (@decorated_chain_reports_then_logs apples_data unit double
           zeroed_double opaque_double epoch_ctime
           (fun _ : unit => throw (std_exception runtime_error "boom"))
           tt boot).
  discriminate.
Defined.

Lemma exception_fail_safe_inside_log_time_witness :
  exists r : optional_type double,
    OK r = false /\ BAD r = true
    /\ exception_fail_safe (H := zeroed_double)
         (log_time (H := epoch_ctime)
            (fun _ : unit => throw (std_exception runtime_error "boom")))
         tt boot
       = Returned r boot
    /\ log_time (H := epoch_ctime)
         (exception_fail_safe (H := zeroed_double)
            (fun _ : unit => throw (std_exception runtime_error "boom")))
         tt boot
       = Returned r
           (printed ("> Logged at " ++ epoch_ctime (clock boot) ++ newline)
              boot).
Proof.
  apply (@exception_fail_safe_inside_log_time apples_data unit double
           zeroed_double epoch_ctime
           (fun _ : unit => throw (std_exception runtime_error "boom"))
           tt boot boot (std_exception runtime_error "boom")).
  reflexivity.
Defined.


(** [calculate_cost(5, -1)] on a live object. *)
Lemma calculate_cost_succeeds_iff_valid_witness :
  match apples_ctor (H := epoch_ctime) (H0 := opaque_double)
          (H1 := zeroed_double) 1%positive 1.09%float boot with
  | Returned a w1 =>
      exists (r : optional_type double) (w' : apples_world),
        call (calculate_cost a) (5, (-1)%float) w1 = Returned r w'
        /\ OK r = (0 <? 5)%Z && negb ((-1) <=? 0)%float
        /\ BAD r = negb (OK r)
        /\ dissolve r = if OK r
                        then (int_to_double 5 * (-1) * 1.09)%float
                        else zeroed_double
  | _ => False
  end.
Proof.
  cbv [apples_ctor bind store ret].
  eapply (@calculate_cost_succeeds_iff_valid epoch_ctime opaque_double
            zeroed_double 1%positive 1.09%float boot).
  - reflexivity.
  - vm_compute. reflexivity.
Defined.

Lemma calculate_cost_only_prints_witness :
  match apples_ctor (H := epoch_ctime) (H0 := opaque_double)
          (H1 := zeroed_double) 1%positive 1.09%float boot with
  | Returned a w1 =>
      (forall e w', call (calculate_cost a) (5, 3.34%float) w1 <> Thrown e w')
      /\ (forall r w',
            call (calculate_cost a) (5, 3.34%float) w1 = Returned r w' ->
            heap w' = heap w1 /\ clock w' = clock w1
            /\ console w'
               = console w1
                 ++ ((if BAD r
                      then "There was an error: " ++ msg r ++ newline
                      else "Bag cost $" ++ opaque_double (value r) ++ newline)
                     ++ "> Logged at " ++ epoch_ctime (clock w1) ++ newline))
  | _ => False
  end.
Proof.
  cbv [apples_ctor bind store ret].
  eapply (@calculate_cost_only_prints epoch_ctime opaque_double
            zeroed_double 1%positive 1.09%float boot).
  reflexivity.
Defined.

(** [calculate_cost(5, NaN)]. *)
Lemma calculate_cost_of_nan_weight_witness :
  match apples_ctor (H := epoch_ctime) (H0 := opaque_double)
          (H1 := zeroed_double) 1%positive 1.09%float boot with
  | Returned a w1 =>
      exists (r : optional_type double) (w' : apples_world),
        call (calculate_cost a) (5, nan) w1 = Returned r w'
        /\ OK r = true /\ BAD r = false
        /\ PrimFloat.is_nan (value r) = true
  | _ => False
  end.
Proof.
  cbv [apples_ctor bind store ret].
  eapply (@calculate_cost_of_nan_weight epoch_ctime opaque_double
            zeroed_double 1%positive 1.09%float boot).
  - reflexivity.
  - vm_compute. reflexivity.
  - lia.
  - reflexivity.
Defined.

Lemma call_after_destruction_is_undefined_witness :
  match apples_ctor (H := epoch_ctime) (H0 := opaque_double)
          (H1 := zeroed_double) 1%positive 1.09%float boot with
  | Returned a w1 =>
      (apples_dtor 1%positive ;;
       call (calculate_cost a) (5, 3.34%float)) w1 = Undefined
      /\ (apples_dtor 1%positive ;;
          call (class_memberfunc_copy (calculate_cost a)) (5, 3.34%float)) w1
         = Undefined
  | _ => False
  end.
Proof.
  cbv [apples_ctor bind store ret].
  eapply (@call_after_destruction_is_undefined epoch_ctime opaque_double
            zeroed_double 1%positive 1.09%float boot).
  - reflexivity.
  - lia.
  - reflexivity.
Defined.

(** Two objects, at unit costs 1.09 and 2. *)
Lemma second_object_leaves_first_intact_witness :
  match apples_ctor (H := epoch_ctime) (H0 := opaque_double)
          (H1 := zeroed_double) 1%positive 1.09%float boot with
  | Returned a w1 =>
      match apples_ctor (H := epoch_ctime) (H0 := opaque_double)
              (H1 := zeroed_double) 2%positive 2%float w1 with
      | Returned b w2 =>
          exists (w' : apples_world),
            call (calculate_cost a) (5, 3.34%float) w2
            = Returned
                (optional_type_of (int_to_double 5 * 3.34 * 1.09)%float) w'
            /\ call (class_memberfunc_copy (calculate_cost a))
                 (5, 3.34%float) w2
               = Returned
                   (optional_type_of (int_to_double 5 * 3.34 * 1.09)%float) w'
            /\ exists (w'' : apples_world),
                 call (calculate_cost b) (5, 3.34%float) w2
                 = Returned
                     (optional_type_of (int_to_double 5 * 3.34 * 2)%float) w''
      | _ => False
      end
  | _ => False
  end.
Proof.
  cbv [apples_ctor bind store ret].
  eapply (@second_object_leaves_first_intact epoch_ctime opaque_double
            zeroed_double 1%positive 2%positive 1.09%float 2%float boot).
  - discriminate.
  - reflexivity.
  - reflexivity.
  - lia.
  - reflexivity.
Defined.

Lemma construct_call_destroy_restores_heap_witness :
  exists (w' : apples_world),
    (a <- apples_ctor (H := epoch_ctime) (H0 := opaque_double)
            (H1 := zeroed_double) 1%positive 1.09%float ;;
     _ <- call (calculate_cost a) (0, 3.34%float) ;;
     apples_dtor 1%positive) boot = Returned tt w'
    /\ heap w' = heap boot /\ clock w' = clock boot.
Proof.
  apply (@construct_call_destroy_restores_heap epoch_ctime opaque_double
           zeroed_double 1%positive 1.09%float boot 0 3.34%float).
  reflexivity.
Defined.
